(** * Phalcon extension glue: class entries, argument-info tables and
      method-registration tables of

      - [ext/phalcon/translate/interpolator/associativearray.zep.h]
      - [ext/phalcon/validation/validator/exclusionin.zep.h]

    Both headers are sequences of Zend/Zephir macro invocations.  The
    embedding keeps them as such: every macro is a constructor that takes
    the macro's arguments in the order the header writes them, a table is
    the list of its rows, and the preprocessor conditional on
    [PHP_VERSION_ID] is an [if] on an integer parameter of that name. *)

From Stdlib Require Import ZArith List String Bool Lia.
Import ListNotations.

Local Open Scope string_scope.
Local Open Scope Z_scope.

(** ** The Zend API vocabulary the headers are written in *)

(** Type codes that may appear as a type hint.  The headers use
    [IS_STRING] and [_IS_BOOL]; the numeric values differ between PHP
    releases, so the codes are kept symbolic. *)
Inductive zend_type_code : Set :=
| IS_UNDEF | IS_NULL | IS_FALSE | IS_TRUE | IS_LONG | IS_DOUBLE
| IS_STRING | IS_ARRAY | IS_OBJECT | IS_RESOURCE | IS_CALLABLE
| _IS_BOOL.

(** Access flags of a function entry; a flag word is the list of the
    flags joined by [|]. *)
Inductive zend_acc_flag : Set :=
| ZEND_ACC_STATIC | ZEND_ACC_ABSTRACT | ZEND_ACC_FINAL
| ZEND_ACC_PUBLIC | ZEND_ACC_PROTECTED | ZEND_ACC_PRIVATE.

(** One row of an argument-info table. *)
Inductive zend_arg : Set :=
| ZEND_ARG_INFO (pass_by_ref : Z) (name : string)
| ZEND_ARG_TYPE_INFO (pass_by_ref : Z) (name : string)
                     (type_hint : zend_type_code) (allow_null : Z)
| ZEND_ARG_OBJ_INFO (pass_by_ref : Z) (name : string)
                    (classname : string) (allow_null : Z).

(** The opening row of an argument-info table.  The macro
    [ZEND_BEGIN_ARG_WITH_RETURN_TYPE_INFO_EX] takes five arguments from
    PHP 7.2 on and six (with a class name, [NULL] being [None]) before;
    the six-argument form is the constructor with suffix [_6].
    [ZEND_BEGIN_ARG_INFO_EX] is the opening row without a return type. *)
Inductive zend_arg_begin : Set :=
| ZEND_BEGIN_ARG_INFO_EX (return_reference required_num_args : Z)
| ZEND_BEGIN_ARG_WITH_RETURN_TYPE_INFO_EX
    (return_reference required_num_args : Z)
    (type : zend_type_code) (allow_null : Z)
| ZEND_BEGIN_ARG_WITH_RETURN_TYPE_INFO_EX_6
    (return_reference required_num_args : Z)
    (type : zend_type_code) (class_name : option string) (allow_null : Z).

(** A table, from its opening macro to [ZEND_END_ARG_INFO()]. *)
Record zend_arg_info_table : Set := ZEND_END_ARG_INFO {
  arginfo_begin : zend_arg_begin;
  arginfo_args : list zend_arg
}.

(** One row of a method-registration table. *)
Inductive zend_function_entry : Set :=
| PHP_ME (classname name : string) (arg_info : zend_arg_info_table)
         (flags : list zend_acc_flag)
| PHP_FE_END.

(** A top-level declaration of a generated header. *)
Inductive declaration : Set :=
| extern_zend_class_entry (ce : string)
| ZEPHIR_INIT_CLASS (name : string)
| PHP_METHOD (classname name : string)
| ZEND_ARG_INFO_TABLE (name : string) (table : zend_arg_info_table)
| ZEPHIR_INIT_FUNCS (name : string) (entries : list zend_function_entry).

(** ** Reading a table *)

Definition arg_name (a : zend_arg) : string :=
  match a with
  | ZEND_ARG_INFO _ n => n
  | ZEND_ARG_TYPE_INFO _ n _ _ => n
  | ZEND_ARG_OBJ_INFO _ n _ _ => n
  end.

Definition arg_pass_by_ref (a : zend_arg) : Z :=
  match a with
  | ZEND_ARG_INFO r _ => r
  | ZEND_ARG_TYPE_INFO r _ _ _ => r
  | ZEND_ARG_OBJ_INFO r _ _ _ => r
  end.

(** What a row or an opening row declares as a type. *)
Inductive declared_type : Set :=
| type_hint_code (t : zend_type_code)
| type_hint_class (classname : string).

(** The declared type of a parameter with its allow-null flag; [None]
    for a row that declares no type. *)
Definition arg_type (a : zend_arg) : option (declared_type * Z) :=
  match a with
  | ZEND_ARG_INFO _ _ => None
  | ZEND_ARG_TYPE_INFO _ _ t n => Some (type_hint_code t, n)
  | ZEND_ARG_OBJ_INFO _ _ c n => Some (type_hint_class c, n)
  end.

Definition begin_return_reference (b : zend_arg_begin) : Z :=
  match b with
  | ZEND_BEGIN_ARG_INFO_EX r _ => r
  | ZEND_BEGIN_ARG_WITH_RETURN_TYPE_INFO_EX r _ _ _ => r
  | ZEND_BEGIN_ARG_WITH_RETURN_TYPE_INFO_EX_6 r _ _ _ _ => r
  end.

Definition begin_required_num_args (b : zend_arg_begin) : Z :=
  match b with
  | ZEND_BEGIN_ARG_INFO_EX _ n => n
  | ZEND_BEGIN_ARG_WITH_RETURN_TYPE_INFO_EX _ n _ _ => n
  | ZEND_BEGIN_ARG_WITH_RETURN_TYPE_INFO_EX_6 _ n _ _ _ => n
  end.

(** The declared return type with its allow-null flag. *)
Definition begin_return_type (b : zend_arg_begin) : option (zend_type_code * Z) :=
  match b with
  | ZEND_BEGIN_ARG_INFO_EX _ _ => None
  | ZEND_BEGIN_ARG_WITH_RETURN_TYPE_INFO_EX _ _ t n => Some (t, n)
  | ZEND_BEGIN_ARG_WITH_RETURN_TYPE_INFO_EX_6 _ _ t _ n => Some (t, n)
  end.

Definition required_num_args (t : zend_arg_info_table) : Z :=
  begin_required_num_args (arginfo_begin t).

Definition num_args (t : zend_arg_info_table) : Z :=
  Z.of_nat (List.length (arginfo_args t)).

Definition param_names (t : zend_arg_info_table) : list string :=
  map arg_name (arginfo_args t).

Definition return_type (t : zend_arg_info_table) : option zend_type_code :=
  option_map fst (begin_return_type (arginfo_begin t)).

Definition return_allow_null (t : zend_arg_info_table) : option Z :=
  option_map snd (begin_return_type (arginfo_begin t)).

(** The parameters a call must supply, and those it may leave out. *)
Definition required_params (t : zend_arg_info_table) : list string :=
  firstn (Z.to_nat (required_num_args t)) (param_names t).

Definition optional_params (t : zend_arg_info_table) : list string :=
  skipn (Z.to_nat (required_num_args t)) (param_names t).

(** ** Reading a method-registration table *)

(** The rows the host registers: those before the end-of-table row. *)
Fixpoint registered_methods (es : list zend_function_entry)
  : list zend_function_entry :=
  match es with
  | [] => []
  | PHP_FE_END :: _ => []
  | e :: rest => e :: registered_methods rest
  end.

Definition fe_classname (e : zend_function_entry) : option string :=
  match e with PHP_ME c _ _ _ => Some c | PHP_FE_END => None end.

Definition fe_name (e : zend_function_entry) : option string :=
  match e with PHP_ME _ n _ _ => Some n | PHP_FE_END => None end.

Definition fe_arg_info (e : zend_function_entry) : option zend_arg_info_table :=
  match e with PHP_ME _ _ t _ => Some t | PHP_FE_END => None end.

Definition fe_flags (e : zend_function_entry) : list zend_acc_flag :=
  match e with PHP_ME _ _ _ f => f | PHP_FE_END => [] end.

Definition zend_acc_flag_eqb (a b : zend_acc_flag) : bool :=
  match a, b with
  | ZEND_ACC_STATIC, ZEND_ACC_STATIC
  | ZEND_ACC_ABSTRACT, ZEND_ACC_ABSTRACT
  | ZEND_ACC_FINAL, ZEND_ACC_FINAL
  | ZEND_ACC_PUBLIC, ZEND_ACC_PUBLIC
  | ZEND_ACC_PROTECTED, ZEND_ACC_PROTECTED
  | ZEND_ACC_PRIVATE, ZEND_ACC_PRIVATE => true
  | _, _ => false
  end.

Definition has_flag (f : zend_acc_flag) (fs : list zend_acc_flag) : bool :=
  existsb (zend_acc_flag_eqb f) fs.

(** Public: the public bit is set and neither of the other two
    visibility bits is. *)
Definition is_public (e : zend_function_entry) : bool :=
  has_flag ZEND_ACC_PUBLIC (fe_flags e)
  && negb (has_flag ZEND_ACC_PROTECTED (fe_flags e))
  && negb (has_flag ZEND_ACC_PRIVATE (fe_flags e)).

(** ** Reading a header *)

Definition init_classes (ds : list declaration) : list string :=
  flat_map (fun d => match d with ZEPHIR_INIT_CLASS n => [n] | _ => [] end) ds.

Definition class_entries (ds : list declaration) : list string :=
  flat_map (fun d => match d with extern_zend_class_entry n => [n] | _ => [] end) ds.

Definition method_tables (ds : list declaration)
  : list (list zend_function_entry) :=
  flat_map (fun d => match d with ZEPHIR_INIT_FUNCS _ es => [es] | _ => [] end) ds.

Definition arg_info_tables (ds : list declaration) : list zend_arg_info_table :=
  flat_map (fun d => match d with ZEND_ARG_INFO_TABLE _ t => [t] | _ => [] end) ds.

Definition declared_methods (ds : list declaration) : list (string * string) :=
  flat_map (fun d => match d with PHP_METHOD c n => [(c, n)] | _ => [] end) ds.

(** Every method the registration tables of a header register. *)
Definition header_methods (ds : list declaration) : list zend_function_entry :=
  flat_map registered_methods (method_tables ds).

(** The registered entry of method [name] of class [classname]. *)
Definition find_method (ds : list declaration) (classname name : string)
  : option zend_function_entry :=
  find (fun e => match e with
                 | PHP_ME c n _ _ => String.eqb c classname && String.eqb n name
                 | PHP_FE_END => false
                 end)
       (header_methods ds).

(** The argument-info table a method is registered with. *)
Definition method_arg_info (ds : list declaration) (classname name : string)
  : option zend_arg_info_table :=
  match find_method ds classname name with
  | Some e => fe_arg_info e
  | None => None
  end.

(** ** ext/phalcon/translate/interpolator/associativearray.zep.h *)

Definition arginfo_phalcon_translate_interpolator_associativearray_replaceplaceholders
           (PHP_VERSION_ID : Z) : zend_arg_info_table :=
  ZEND_END_ARG_INFO
    (if 70200 <=? PHP_VERSION_ID
     then ZEND_BEGIN_ARG_WITH_RETURN_TYPE_INFO_EX 0 1 IS_STRING 0
     else ZEND_BEGIN_ARG_WITH_RETURN_TYPE_INFO_EX_6 0 1 IS_STRING None 0)
    [ (if 70200 <=? PHP_VERSION_ID
       then ZEND_ARG_TYPE_INFO 0 "translation" IS_STRING 0
       else ZEND_ARG_INFO 0 "translation");
      ZEND_ARG_INFO 0 "placeholders" ].

Definition phalcon_translate_interpolator_associativearray_method_entry
           (PHP_VERSION_ID : Z) : list zend_function_entry :=
  [ PHP_ME "Phalcon_Translate_Interpolator_AssociativeArray" "replacePlaceholders"
      (arginfo_phalcon_translate_interpolator_associativearray_replaceplaceholders
         PHP_VERSION_ID)
      [ZEND_ACC_PUBLIC];
    PHP_FE_END ].

Definition associativearray_zep_h (PHP_VERSION_ID : Z) : list declaration :=
  [ extern_zend_class_entry "phalcon_translate_interpolator_associativearray_ce";
    ZEPHIR_INIT_CLASS "Phalcon_Translate_Interpolator_AssociativeArray";
    PHP_METHOD "Phalcon_Translate_Interpolator_AssociativeArray" "replacePlaceholders";
    ZEND_ARG_INFO_TABLE
      "arginfo_phalcon_translate_interpolator_associativearray_replaceplaceholders"
      (arginfo_phalcon_translate_interpolator_associativearray_replaceplaceholders
         PHP_VERSION_ID);
    ZEPHIR_INIT_FUNCS "phalcon_translate_interpolator_associativearray_method_entry"
      (phalcon_translate_interpolator_associativearray_method_entry PHP_VERSION_ID) ].

(** ** ext/phalcon/validation/validator/exclusionin.zep.h *)

Definition arginfo_phalcon_validation_validator_exclusionin_validate
           (PHP_VERSION_ID : Z) : zend_arg_info_table :=
  ZEND_END_ARG_INFO
    (if 70200 <=? PHP_VERSION_ID
     then ZEND_BEGIN_ARG_WITH_RETURN_TYPE_INFO_EX 0 2 _IS_BOOL 0
     else ZEND_BEGIN_ARG_WITH_RETURN_TYPE_INFO_EX_6 0 2 _IS_BOOL None 0)
    [ ZEND_ARG_OBJ_INFO 0 "validation" "Phalcon\Validation" 0;
      ZEND_ARG_INFO 0 "field" ].

Definition phalcon_validation_validator_exclusionin_method_entry
           (PHP_VERSION_ID : Z) : list zend_function_entry :=
  [ PHP_ME "Phalcon_Validation_Validator_ExclusionIn" "validate"
      (arginfo_phalcon_validation_validator_exclusionin_validate PHP_VERSION_ID)
      [ZEND_ACC_PUBLIC];
    PHP_FE_END ].

Definition exclusionin_zep_h (PHP_VERSION_ID : Z) : list declaration :=
  [ extern_zend_class_entry "phalcon_validation_validator_exclusionin_ce";
    ZEPHIR_INIT_CLASS "Phalcon_Validation_Validator_ExclusionIn";
    PHP_METHOD "Phalcon_Validation_Validator_ExclusionIn" "validate";
    ZEND_ARG_INFO_TABLE "arginfo_phalcon_validation_validator_exclusionin_validate"
      (arginfo_phalcon_validation_validator_exclusionin_validate PHP_VERSION_ID);
    ZEPHIR_INIT_FUNCS "phalcon_validation_validator_exclusionin_method_entry"
      (phalcon_validation_validator_exclusionin_method_entry PHP_VERSION_ID) ].

(** The two headers. *)
Definition fragments (PHP_VERSION_ID : Z) : list (list declaration) :=
  [ associativearray_zep_h PHP_VERSION_ID; exclusionin_zep_h PHP_VERSION_ID ].

(** Every method the two registration tables register. *)
Definition all_registered_methods (PHP_VERSION_ID : Z) : list zend_function_entry :=
  flat_map header_methods (fragments PHP_VERSION_ID).

(** Every argument-info table the two headers declare. *)
Definition all_arg_info_tables (PHP_VERSION_ID : Z) : list zend_arg_info_table :=
  flat_map arg_info_tables (fragments PHP_VERSION_ID).

(** The classes whose initialisation routine the two headers declare. *)
Definition all_init_classes (PHP_VERSION_ID : Z) : list string :=
  flat_map init_classes (fragments PHP_VERSION_ID).

(** ** The host's side: call-time validation of an argument *)

(** A value a call passes.  An object carries the name of its class and
    the names of the classes and interfaces it inherits from. *)
Inductive zval : Set :=
| zv_null
| zv_bool (b : bool)
| zv_long (n : Z)
| zv_string (s : string)
| zv_array (keys : list string)
| zv_object (ce : string) (parents : list string).

Definition instanceof_function (v : zval) (classname : string) : bool :=
  match v with
  | zv_object ce parents => existsb (String.eqb classname) (ce :: parents)
  | _ => false
  end.

Definition is_null (v : zval) : bool :=
  match v with zv_null => true | _ => false end.

(** Modelled from the spec: the host's call-time argument type validation
    that consumes an argument-info table (spec section 6); the host is not
    part of the headers.  Only the check of a class-type constraint is
    modelled: a row that names a class accepts the instances of that class
    and, when its allow-null flag is set, null; a row without a class name
    puts no class constraint on the value. *)
Definition zend_verify_arg_class (a : zend_arg) (v : zval) : bool :=
  match a with
  | ZEND_ARG_OBJ_INFO _ _ classname allow_null =>
      instanceof_function v classname || (is_null v && negb (allow_null =? 0))
  | _ => true
  end.

(** ** The host's side: the module lifecycle *)

Inductive host_event : Set :=
| extension_load
| extension_unload.

(** What a run leaves in the log.  A class initialisation records whether
    the class entry was already initialised when the routine ran. *)
Inductive lifecycle_event : Set :=
| ev_load
| ev_class_init (name : string) (initialized_before : bool)
| ev_unload.

Record module_state : Set := {
  module_loaded : bool;
  initialized : list string;        (* class entries that are set *)
  events : list lifecycle_event     (* the log, newest event first *)
}.

Definition module_unloaded : module_state :=
  {| module_loaded := false; initialized := []; events := [] |}.

(** Modelled from the spec: the class-initialisation routine that
    [ZEPHIR_INIT_CLASS] declares; its body is not in the headers.  It
    creates the class entry of the class (spec section 3). *)
Definition init_class (name : string) (s : module_state) : module_state :=
  {| module_loaded := module_loaded s;
     initialized := name :: initialized s;
     events := ev_class_init name (existsb (String.eqb name) (initialized s))
               :: events s |}.

(** Modelled from the spec: the module-initialisation routine, which is
    not in the headers; it consumes the class entries of the fragments
    (spec section 6) by running the initialisation routine of each declared
    class, in order. *)
Definition module_startup (classes : list string) (s : module_state)
  : module_state :=
  fold_left (fun st c => init_class c st) classes s.

(** Modelled from the spec: the lifecycle the host owns (spec sections 3
    and 5): class entries are created at extension load, where
    registration is performed, and destroyed at extension unload; a module
    is loaded only when it is not loaded and unloaded only when it is. *)
Definition host_step (classes : list string) (s : module_state) (e : host_event)
  : option module_state :=
  match e, module_loaded s with
  | extension_load, false =>
      Some (module_startup classes
              {| module_loaded := true;
                 initialized := initialized s;
                 events := ev_load :: events s |})
  | extension_unload, true =>
      Some {| module_loaded := false;
              initialized := [];
              events := ev_unload :: events s |}
  | _, _ => None
  end.

Fixpoint host_run (classes : list string) (s : module_state) (es : list host_event)
  : option module_state :=
  match es with
  | [] => Some s
  | e :: rest =>
      match host_step classes s e with
      | Some s' => host_run classes s' rest
      | None => None
      end
  end.

(** The module lifecycles of a log (newest first, as the log is): a
    lifecycle holds the events from a load up to the next load. *)
Fixpoint lifecycles (log : list lifecycle_event) : list (list lifecycle_event) :=
  match log with
  | [] => []
  | ev_load :: older => [] :: lifecycles older
  | e :: older =>
      match lifecycles older with
      | [] => []
      | lc :: lcs => (e :: lc) :: lcs
      end
  end.

Definition is_init_of (name : string) (e : lifecycle_event) : bool :=
  match e with
  | ev_class_init n _ => String.eqb n name
  | _ => false
  end.

(** How often the initialisation routine of a class ran in a lifecycle. *)
Definition init_runs (name : string) (lc : list lifecycle_event) : nat :=
  List.length (filter (is_init_of name) lc).

(** No logged initialisation ran on a class entry that was initialised. *)
Definition never_reinitialized (log : list lifecycle_event) : Prop :=
  Forall (fun e => match e with
                   | ev_class_init _ b => b = false
                   | _ => True
                   end) log.

(** How many loads a sequence of host events holds. *)
Definition loads (es : list host_event) : nat :=
  List.length (filter (fun e => match e with
                                | extension_load => true
                                | extension_unload => false
                                end) es).

(** What holds of every state the host can reach: no class entry is set
    while the module is not loaded, in every lifecycle each class of
    [classes] was initialised once, and no initialisation was repeated. *)
Definition lifecycle_inv (classes : list string) (s : module_state) : Prop :=
  (module_loaded s = false -> initialized s = [])
  /\ Forall (fun lc => Forall (fun c => init_runs c lc = 1%nat) classes)
            (lifecycles (events s))
  /\ never_reinitialized (events s).

(** ** Properties of rows and tables *)

Definition arg_by_value (a : zend_arg) : Prop :=
  arg_pass_by_ref a = 0.

(** A row that declares a type declares it with allow-null flag 0. *)
Definition arg_non_nullable (a : zend_arg) : Prop :=
  match arg_type a with
  | Some (_, allow_null) => allow_null = 0
  | None => True
  end.

Definition return_non_nullable (t : zend_arg_info_table) : Prop :=
  match return_allow_null t with
  | Some allow_null => allow_null = 0
  | None => True
  end.

(** What a table records: the required count, the number of rows, the
    parameter names and the declared return type. *)
Definition arginfo_shape (t : zend_arg_info_table)
  : Z * Z * list string * option zend_type_code :=
  (required_num_args t, num_args t, param_names t, return_type t).

Create HintDb headers.

#[local] Hint Unfold
  all_registered_methods all_arg_info_tables all_init_classes fragments
  associativearray_zep_h exclusionin_zep_h
  phalcon_translate_interpolator_associativearray_method_entry
  phalcon_validation_validator_exclusionin_method_entry
  arginfo_phalcon_translate_interpolator_associativearray_replaceplaceholders
  arginfo_phalcon_validation_validator_exclusionin_validate : headers.

(** Unfold the headers and decide the preprocessor conditional. *)
Ltac by_php_version v :=
  repeat autounfold with headers;
  destruct (70200 <=? v).

(** ** Further readings of a header *)

(** The class name of a declared return type: the fifth argument of the
    six-argument opening macro, absent in the other forms. *)
Definition begin_return_class_name (b : zend_arg_begin) : option string :=
  match b with
  | ZEND_BEGIN_ARG_INFO_EX _ _ => None
  | ZEND_BEGIN_ARG_WITH_RETURN_TYPE_INFO_EX _ _ _ _ => None
  | ZEND_BEGIN_ARG_WITH_RETURN_TYPE_INFO_EX_6 _ _ _ c _ => c
  end.

(** The C identifiers of the argument-info tables a header defines. *)
Definition arg_info_table_names (ds : list declaration) : list string :=
  flat_map (fun d => match d with ZEND_ARG_INFO_TABLE n _ => [n] | _ => [] end) ds.

(** The C identifiers of the method-registration tables a header defines. *)
Definition method_table_names (ds : list declaration) : list string :=
  flat_map (fun d => match d with ZEPHIR_INIT_FUNCS n _ => [n] | _ => [] end) ds.

(** The C identifiers a header writes out: class-entry variables,
    argument-info tables and method-registration tables, in source order. *)
Definition declared_identifiers (ds : list declaration) : list string :=
  flat_map (fun d => match d with
                     | extern_zend_class_entry n => [n]
                     | ZEND_ARG_INFO_TABLE n _ => [n]
                     | ZEPHIR_INIT_FUNCS n _ => [n]
                     | ZEPHIR_INIT_CLASS _ => []
                     | PHP_METHOD _ _ => []
                     end) ds.

(** ASCII lower case, for comparing the identifiers with the class and
    method names they are derived from. *)
Definition ascii_tolower (c : Ascii.ascii) : Ascii.ascii :=
  let n := Ascii.nat_of_ascii c in
  if (Nat.leb 65 n && Nat.leb n 90)%bool
  then Ascii.ascii_of_nat (n + 32)
  else c.

Fixpoint string_tolower (s : string) : string :=
  match s with
  | EmptyString => EmptyString
  | String c rest => String (ascii_tolower c) (string_tolower rest)
  end.

(** ** Sanity checks on concrete inputs *)

Example ex_names_validate :
  param_names (arginfo_phalcon_validation_validator_exclusionin_validate 70300)
  = ["validation"; "field"].
Proof. reflexivity. Qed.

Example ex_required_replace :
  required_params
    (arginfo_phalcon_translate_interpolator_associativearray_replaceplaceholders 70100)
  = ["translation"].
Proof. reflexivity. Qed.

Example ex_run_two_lifecycles :
  option_map (fun s => map (init_runs "Phalcon_Validation_Validator_ExclusionIn")
                           (lifecycles (events s)))
             (host_run (all_init_classes 70200) module_unloaded
                       [extension_load; extension_unload; extension_load])
  = Some [1%nat; 1%nat].
Proof. reflexivity. Qed.

Example ex_second_load_refused :
  host_run (all_init_classes 70200) module_unloaded
           [extension_load; extension_load] = None.
Proof. reflexivity. Qed.

Example ex_verify_null :
  zend_verify_arg_class (ZEND_ARG_OBJ_INFO 0 "validation" "Phalcon\Validation" 0)
                        zv_null = false.
Proof. reflexivity. Qed.

Example ex_verify_subclass :
  zend_verify_arg_class (ZEND_ARG_OBJ_INFO 0 "validation" "Phalcon\Validation" 0)
                        (zv_object "My\Validation" ["Phalcon\Validation"]) = true.
Proof. reflexivity. Qed.

(** * Theorems *)

(** ** The argument-info tables *)

(** C1, as the header has it: the method [validate] of class
    [Phalcon_Validation_Validator_ExclusionIn] is registered with an
    argument-info table of exactly two rows whose names, in order, are
    [validation] and [field], whatever the PHP version. *)
Theorem validate_param_names (PHP_VERSION_ID : Z) :
  option_map (fun t => (num_args t, param_names t))
    (method_arg_info (exclusionin_zep_h PHP_VERSION_ID)
       "Phalcon_Validation_Validator_ExclusionIn" "validate")
  = Some (2, ["validation"; "field"]).
Proof. reflexivity. Qed.

(** C1, as the claim words it, fails: at PHP 7.2 the names of the two
    parameters of [validate] are not [validationContext] and [field]. *)
Lemma validate_param_names_not_validationContext :
  option_map param_names
    (method_arg_info (exclusionin_zep_h 70200)
       "Phalcon_Validation_Validator_ExclusionIn" "validate")
  <> Some ["validationContext"; "field"].
Proof. vm_compute. intros H. discriminate H. Qed.

(** C2: the method [replacePlaceholders] of class
    [Phalcon_Translate_Interpolator_AssociativeArray] is registered with an
    argument-info table of exactly two rows whose names, in order, are
    [translation] and [placeholders], whatever the PHP version. *)
Theorem replacePlaceholders_param_names (PHP_VERSION_ID : Z) :
  option_map (fun t => (num_args t, param_names t))
    (method_arg_info (associativearray_zep_h PHP_VERSION_ID)
       "Phalcon_Translate_Interpolator_AssociativeArray" "replacePlaceholders")
  = Some (2, ["translation"; "placeholders"]).
Proof. by_php_version PHP_VERSION_ID; reflexivity. Qed.

(** C3: every method a header declares is registered with an
    argument-info table that records a required count, the parameter
    names and a declared return type; the table of [replacePlaceholders]
    declares [IS_STRING] and the table of [validate] declares [_IS_BOOL]. *)
Theorem arginfo_records_count_names_return_type (PHP_VERSION_ID : Z) :
  Forall (fun ds =>
            Forall (fun m => exists t n names ty,
                        method_arg_info ds (fst m) (snd m) = Some t
                        /\ required_num_args t = n
                        /\ param_names t = names
                        /\ return_type t = Some ty)
                   (declared_methods ds))
         (fragments PHP_VERSION_ID)
  /\ option_map arginfo_shape
       (method_arg_info (associativearray_zep_h PHP_VERSION_ID)
          "Phalcon_Translate_Interpolator_AssociativeArray" "replacePlaceholders")
     = Some (1, 2, ["translation"; "placeholders"], Some IS_STRING)
  /\ option_map arginfo_shape
       (method_arg_info (exclusionin_zep_h PHP_VERSION_ID)
          "Phalcon_Validation_Validator_ExclusionIn" "validate")
     = Some (2, 2, ["validation"; "field"], Some _IS_BOOL).
Proof.
  by_php_version PHP_VERSION_ID;
    (split; [ | split; reflexivity ]);
    repeat constructor; cbn [fst snd];
    eexists; eexists; eexists; eexists;
    (split; [ reflexivity | repeat split; reflexivity ]).
Qed.

(** C8: [replacePlaceholders] declares two parameters and requires one,
    [translation], leaving [placeholders] optional; [validate] declares
    two parameters and requires both. *)
Theorem required_counts_asymmetric (PHP_VERSION_ID : Z) :
  (num_args (arginfo_phalcon_translate_interpolator_associativearray_replaceplaceholders
               PHP_VERSION_ID) = 2
   /\ required_num_args
        (arginfo_phalcon_translate_interpolator_associativearray_replaceplaceholders
           PHP_VERSION_ID) = 1
   /\ required_params
        (arginfo_phalcon_translate_interpolator_associativearray_replaceplaceholders
           PHP_VERSION_ID) = ["translation"]
   /\ optional_params
        (arginfo_phalcon_translate_interpolator_associativearray_replaceplaceholders
           PHP_VERSION_ID) = ["placeholders"])
  /\ (num_args (arginfo_phalcon_validation_validator_exclusionin_validate
                  PHP_VERSION_ID) = 2
      /\ required_num_args
           (arginfo_phalcon_validation_validator_exclusionin_validate
              PHP_VERSION_ID) = 2
      /\ required_params
           (arginfo_phalcon_validation_validator_exclusionin_validate
              PHP_VERSION_ID) = ["validation"; "field"]
      /\ optional_params
           (arginfo_phalcon_validation_validator_exclusionin_validate
              PHP_VERSION_ID) = []).
Proof. by_php_version PHP_VERSION_ID; repeat split; reflexivity. Qed.

(** C10: in both argument-info tables every parameter has by-reference
    flag 0, and every declared parameter type and every declared return
    type has allow-null flag 0. *)
Theorem all_by_value_and_non_nullable (PHP_VERSION_ID : Z) :
  Forall (fun t => Forall arg_by_value (arginfo_args t)
                   /\ Forall arg_non_nullable (arginfo_args t)
                   /\ return_non_nullable t)
         (all_arg_info_tables PHP_VERSION_ID)
  /\ List.length (all_arg_info_tables PHP_VERSION_ID) = 2%nat.
Proof.
  by_php_version PHP_VERSION_ID;
    (split; [ | reflexivity ]);
    repeat constructor.
Qed.

(** ** The method-registration tables *)

(** C4: there are two fragments; each declares the initialisation of
    exactly one class and one method-registration table, which holds one
    method entry of that class followed by the end-of-table row. *)
Theorem one_class_one_method (PHP_VERSION_ID : Z) :
  List.length (fragments PHP_VERSION_ID) = 2%nat
  /\ Forall (fun ds => exists cls name arg_info flags,
                 init_classes ds = [cls]
                 /\ method_tables ds = [[PHP_ME cls name arg_info flags; PHP_FE_END]]
                 /\ header_methods ds = [PHP_ME cls name arg_info flags])
            (fragments PHP_VERSION_ID).
Proof.
  split; [ reflexivity | ].
  repeat constructor; do 4 eexists; repeat split; reflexivity.
Qed.

(** C7: every method the two registration tables register carries the
    access flag [ZEND_ACC_PUBLIC] and no other, so its visibility is
    public. *)
Theorem all_methods_public (PHP_VERSION_ID : Z) :
  Forall (fun e => fe_flags e = [ZEND_ACC_PUBLIC] /\ is_public e = true)
         (all_registered_methods PHP_VERSION_ID)
  /\ List.length (all_registered_methods PHP_VERSION_ID) = 2%nat.
Proof.
  split; [ | reflexivity ].
  repeat constructor.
Qed.

(** ** Call-time validation of the parameters of [validate] *)

(** C9: the first row of the table of [validate] names the class
    [Phalcon\Validation] with allow-null flag 0 and the row of [field]
    declares no type; so the host's check of the class constraint rejects
    every value that is not an instance of [Phalcon\Validation] for the
    first parameter, and puts no constraint on [field]. *)
Theorem validate_first_param_class_constraint (PHP_VERSION_ID : Z) :
  map (fun a => (arg_name a, arg_type a))
      (arginfo_args
         (arginfo_phalcon_validation_validator_exclusionin_validate PHP_VERSION_ID))
  = [ ("validation", Some (type_hint_class "Phalcon\Validation", 0));
      ("field", None) ]
  /\ (forall v : zval,
         instanceof_function v "Phalcon\Validation" = false ->
         option_map (fun a => zend_verify_arg_class a v)
           (nth_error
              (arginfo_args
                 (arginfo_phalcon_validation_validator_exclusionin_validate
                    PHP_VERSION_ID)) 0)
         = Some false)
  /\ (forall v : zval,
         option_map (fun a => zend_verify_arg_class a v)
           (nth_error
              (arginfo_args
                 (arginfo_phalcon_validation_validator_exclusionin_validate
                    PHP_VERSION_ID)) 1)
         = Some true).
Proof.
  split; [ reflexivity | split ].
  - intros v Hv. cbn [arginfo_args
                        arginfo_phalcon_validation_validator_exclusionin_validate
                        nth_error option_map zend_verify_arg_class].
    rewrite Hv. cbn. now rewrite andb_false_r.
  - intros v. reflexivity.
Qed.

(** C9 at PHP 7.2 and a string: the string is not an instance of
    [Phalcon\Validation] and is rejected for the first parameter. *)
Lemma validate_first_param_class_constraint_witness :
  instanceof_function (zv_string "name") "Phalcon\Validation" = false
  /\ option_map (fun a => zend_verify_arg_class a (zv_string "name"))
       (nth_error
          (arginfo_args
             (arginfo_phalcon_validation_validator_exclusionin_validate 70200)) 0)
     = Some false.
Proof.
  split.
  - reflexivity.
  - apply (proj1 (proj2 (validate_first_param_class_constraint 70200))).
    reflexivity.
Defined.

(** ** The module lifecycle *)

Lemma existsb_eqb_not_in (c : string) (l : list string) :
  ~ In c l -> existsb (String.eqb c) l = false.
Proof.
  induction l as [| x l IH]; intros Hc; [ reflexivity | ].
  cbn. destruct (String.eqb_spec c x) as [-> | _].
  - exfalso. apply Hc. now left.
  - apply IH. intros Hin. apply Hc. now right.
Qed.

Lemma lifecycles_app_load (l old : list lifecycle_event) :
  Forall (fun e => e <> ev_load) l ->
  lifecycles (l ++ ev_load :: old) = l :: lifecycles old.
Proof.
  induction 1 as [| e l He _ IH]; [ reflexivity | ].
  cbn [app lifecycles]. rewrite IH.
  destruct e; [ now contradiction He | reflexivity | reflexivity ].
Qed.

Lemma init_runs_inits_not_in (c : string) (cs : list string) :
  ~ In c cs ->
  filter (is_init_of c) (map (fun n => ev_class_init n false) cs) = [].
Proof.
  induction cs as [| x cs IH]; intros Hc; [ reflexivity | ].
  cbn. destruct (String.eqb_spec x c) as [-> | _].
  - exfalso. apply Hc. now left.
  - apply IH. intros Hin. apply Hc. now right.
Qed.

Lemma init_runs_inits (c : string) (cs : list string) :
  NoDup cs -> In c cs ->
  init_runs c (rev (map (fun n => ev_class_init n false) cs)) = 1%nat.
Proof.
  unfold init_runs. intros Hnd Hin.
  rewrite <- (length_rev (filter _ _)), <- filter_rev, rev_involutive.
  induction Hnd as [| x cs Hx Hnd IH]; [ contradiction | ].
  cbn. destruct (String.eqb_spec x c) as [-> | Hne].
  - now rewrite init_runs_inits_not_in.
  - apply IH. destruct Hin as [Heq | Hin]; [ contradiction | exact Hin ].
Qed.

Lemma module_startup_fresh (cs : list string) :
  forall s : module_state,
    NoDup cs ->
    (forall c, In c cs -> ~ In c (initialized s)) ->
    module_startup cs s
    = {| module_loaded := module_loaded s;
         initialized := rev cs ++ initialized s;
         events := rev (map (fun n => ev_class_init n false) cs) ++ events s |}.
Proof.
  induction cs as [| c cs IH]; intros s Hnd Hfresh.
  - now destruct s.
  - inversion Hnd as [| ? ? Hc Hnd']; subst.
    change (module_startup (c :: cs) s) with (module_startup cs (init_class c s)).
    rewrite IH; [ | exact Hnd' | ].
    + unfold init_class; cbn [module_loaded initialized events map rev].
      rewrite existsb_eqb_not_in by (apply Hfresh; now left).
      now rewrite <- !app_assoc.
    + intros c' Hc' [Heq | Hin].
      * subst c'. now apply Hc.
      * revert Hin. apply Hfresh. now right.
Qed.

Section Lifecycle.

Variable classes : list string.
Hypothesis classes_nodup : NoDup classes.

Lemma lifecycle_inv_unloaded : lifecycle_inv classes module_unloaded.
Proof. repeat split; constructor. Qed.

Lemma lifecycle_inv_step (s s' : module_state) (e : host_event) :
  host_step classes s e = Some s' -> lifecycle_inv classes s -> lifecycle_inv classes s'.
Proof.
  intros Hstep (Hinit & Hlc & Hnever).
  unfold host_step in Hstep.
  destruct e, (module_loaded s) eqn:Hloaded; try discriminate;
    injection Hstep as <-.
  - (* load *)
    rewrite module_startup_fresh;
      [ | exact classes_nodup
        | cbn [initialized]; rewrite (Hinit eq_refl); intros c _ [] ].
    unfold lifecycle_inv; cbn [module_loaded initialized events].
    split; [ discriminate | split ].
    + rewrite lifecycles_app_load.
      * constructor; [ | exact Hlc ].
        apply Forall_forall. intros c Hc.
        now apply init_runs_inits.
      * apply Forall_rev, Forall_map, Forall_forall. discriminate.
    + apply Forall_app. split.
      * apply Forall_rev, Forall_map, Forall_forall. reflexivity.
      * constructor; [ exact I | exact Hnever ].
  - (* unload *)
    unfold lifecycle_inv; cbn [module_loaded initialized events].
    split; [ reflexivity | split ].
    + cbn [lifecycles].
      destruct (lifecycles (events s)) as [| lc lcs]; [ constructor | ].
      inversion Hlc; subst. constructor; assumption.
    + constructor; [ exact I | exact Hnever ].
Qed.

Lemma lifecycle_inv_run (es : list host_event) :
  forall s s' : module_state,
    host_run classes s es = Some s' -> lifecycle_inv classes s -> lifecycle_inv classes s'.
Proof.
  induction es as [| e es IH]; intros s s' Hrun Hinv; cbn in Hrun.
  - now injection Hrun as <-.
  - destruct (host_step classes s e) as [s1 |] eqn:Hstep; [ | discriminate ].
    eapply IH; [ exact Hrun | ].
    eapply lifecycle_inv_step; eassumption.
Qed.

Lemma lifecycles_step (s s' : module_state) (e : host_event) :
  host_step classes s e = Some s' -> lifecycle_inv classes s ->
  List.length (lifecycles (events s'))
  = (loads [e] + List.length (lifecycles (events s)))%nat.
Proof.
  intros Hstep (Hinit & _ & _).
  unfold host_step in Hstep.
  destruct e, (module_loaded s) eqn:Hloaded; try discriminate;
    injection Hstep as <-.
  - rewrite module_startup_fresh;
      [ | exact classes_nodup
        | cbn [initialized]; rewrite (Hinit eq_refl); intros c _ [] ].
    cbn [events]. rewrite lifecycles_app_load; [ reflexivity | ].
    apply Forall_rev, Forall_map, Forall_forall. discriminate.
  - cbn [events lifecycles].
    now destruct (lifecycles (events s)).
Qed.

Lemma lifecycles_run (es : list host_event) :
  forall s s' : module_state,
    host_run classes s es = Some s' -> lifecycle_inv classes s ->
    List.length (lifecycles (events s'))
    = (loads es + List.length (lifecycles (events s)))%nat.
Proof.
  induction es as [| e es IH]; intros s s' Hrun Hinv; cbn in Hrun.
  - now injection Hrun as <-.
  - destruct (host_step classes s e) as [s1 |] eqn:Hstep; [ | discriminate ].
    rewrite (IH s1 s' Hrun (lifecycle_inv_step s s1 e Hstep Hinv)).
    rewrite (lifecycles_step s s1 e Hstep Hinv).
    unfold loads. destruct e; cbn; lia.
Qed.

End Lifecycle.

Lemma all_init_classes_nodup (PHP_VERSION_ID : Z) :
  NoDup (all_init_classes PHP_VERSION_ID).
Proof.
  repeat constructor; cbn; intuition discriminate.
Qed.

(** C5, on the lifecycle the spec describes: whatever sequence of loads
    and unloads the host performs, every load starts one module lifecycle,
    in every lifecycle the initialisation routine of each class the two
    fragments declare has run exactly once, and no run of it found its
    class entry initialised. *)
Theorem class_init_once_per_lifecycle
        (PHP_VERSION_ID : Z) (es : list host_event) (s : module_state)
        (Hrun : host_run (all_init_classes PHP_VERSION_ID) module_unloaded es
                = Some s) :
  List.length (lifecycles (events s)) = loads es
  /\ Forall (fun lc => Forall (fun c => init_runs c lc = 1%nat)
                              (all_init_classes PHP_VERSION_ID))
            (lifecycles (events s))
  /\ never_reinitialized (events s).
Proof.
  pose proof (all_init_classes_nodup PHP_VERSION_ID) as Hnd.
  pose proof (lifecycle_inv_unloaded (all_init_classes PHP_VERSION_ID)) as H0.
  split.
  - rewrite (lifecycles_run _ Hnd es _ _ Hrun H0). cbn. lia.
  - exact (proj2 (lifecycle_inv_run _ Hnd es _ _ Hrun H0)).
Qed.

(** C5 on a load, an unload and a second load: the run is accepted and
    has two lifecycles. *)
Lemma class_init_once_per_lifecycle_witness :
  exists s : module_state,
    host_run (all_init_classes 70200) module_unloaded
             [extension_load; extension_unload; extension_load] = Some s
    /\ List.length (lifecycles (events s)) = 2%nat
    /\ Forall (fun lc => Forall (fun c => init_runs c lc = 1%nat)
                                (all_init_classes 70200))
              (lifecycles (events s))
    /\ never_reinitialized (events s).
Proof.
  eexists. split; [ reflexivity | ].
  apply (class_init_once_per_lifecycle 70200
           [extension_load; extension_unload; extension_load]).
  reflexivity.
Defined.

Example ex_tolower :
  string_tolower "Phalcon_Validation_Validator_ExclusionIn"
  = "phalcon_validation_validator_exclusionin".
Proof. reflexivity. Qed.

(** * Further properties of the two headers *)

(** ** What the preprocessor conditional changes *)

(** X1: the type hint of [translation] depends on the PHP version: from
    7.2 on the row declares [IS_STRING] with allow-null flag 0, before 7.2
    no row of [replacePlaceholders] declares a type; [placeholders] is
    untyped either way. *)
Theorem translation_type_hint_from_php72 (PHP_VERSION_ID : Z) :
  (70200 <= PHP_VERSION_ID ->
   map arg_type
       (arginfo_args
          (arginfo_phalcon_translate_interpolator_associativearray_replaceplaceholders
             PHP_VERSION_ID))
   = [Some (type_hint_code IS_STRING, 0); None])
  /\ (PHP_VERSION_ID < 70200 ->
      map arg_type
          (arginfo_args
             (arginfo_phalcon_translate_interpolator_associativearray_replaceplaceholders
                PHP_VERSION_ID))
      = [None; None]).
Proof.
  unfold arginfo_phalcon_translate_interpolator_associativearray_replaceplaceholders.
  destruct (Z.leb_spec 70200 PHP_VERSION_ID) as [Hge | Hlt];
    split; intros H; first [ reflexivity | lia ].
Qed.

(** X1 on both sides of the boundary: PHP 7.2.0 and PHP 7.1.99. *)
Lemma translation_type_hint_from_php72_witness :
  map arg_type
      (arginfo_args
         (arginfo_phalcon_translate_interpolator_associativearray_replaceplaceholders
            70200))
  = [Some (type_hint_code IS_STRING, 0); None]
  /\ map arg_type
         (arginfo_args
            (arginfo_phalcon_translate_interpolator_associativearray_replaceplaceholders
               70199))
     = [None; None].
Proof.
  split.
  - apply (proj1 (translation_type_hint_from_php72 70200)). lia.
  - apply (proj2 (translation_type_hint_from_php72 70199)). lia.
Defined.

(** X2: apart from that type hint the PHP version changes nothing: for
    any two versions the tables have the same required counts, parameter
    names, by-reference flags, return types and return allow-null flags,
    the rows of [validate] are the same, and the headers declare the same
    class entries, classes, methods and registered entries. *)
Theorem version_changes_only_type_hint (v1 v2 : Z) :
  map (fun t => (arginfo_shape t, map arg_pass_by_ref (arginfo_args t),
                 begin_return_reference (arginfo_begin t), return_allow_null t))
      (all_arg_info_tables v1)
  = map (fun t => (arginfo_shape t, map arg_pass_by_ref (arginfo_args t),
                   begin_return_reference (arginfo_begin t), return_allow_null t))
        (all_arg_info_tables v2)
  /\ arginfo_args (arginfo_phalcon_validation_validator_exclusionin_validate v1)
     = arginfo_args (arginfo_phalcon_validation_validator_exclusionin_validate v2)
  /\ map (fun ds => (declared_identifiers ds, init_classes ds, declared_methods ds))
         (fragments v1)
     = map (fun ds => (declared_identifiers ds, init_classes ds, declared_methods ds))
           (fragments v2)
  /\ map (fun e => (fe_classname e, fe_name e, fe_flags e))
         (all_registered_methods v1)
     = map (fun e => (fe_classname e, fe_name e, fe_flags e))
           (all_registered_methods v2).
Proof.
  repeat autounfold with headers.
  destruct (70200 <=? v1), (70200 <=? v2); repeat split; reflexivity.
Qed.

(** ** Shape of the tables *)

(** X3: in every argument-info table of the two headers the required
    count lies between 0 and the number of rows, and no two rows carry the
    same parameter name. *)
Theorem tables_well_formed (PHP_VERSION_ID : Z) :
  Forall (fun t => 0 <= required_num_args t <= num_args t
                   /\ NoDup (param_names t))
         (all_arg_info_tables PHP_VERSION_ID).
Proof.
  by_php_version PHP_VERSION_ID;
    repeat (apply Forall_cons || apply Forall_nil);
    (split; [ cbv; split; discriminate | ]);
    repeat constructor; cbn; intuition discriminate.
Qed.

(** X4: no method returns by reference, and the declared return type is
    a type code, never a class: the opening row of every table has
    return-reference flag 0 and names no class. *)
Theorem returns_by_value_no_class (PHP_VERSION_ID : Z) :
  Forall (fun t => begin_return_reference (arginfo_begin t) = 0
                   /\ begin_return_class_name (arginfo_begin t) = None)
         (all_arg_info_tables PHP_VERSION_ID).
Proof.
  by_php_version PHP_VERSION_ID; repeat constructor.
Qed.

(** ** How the declarations of a header fit together *)

(** X5: in each header the registered methods are exactly the declared
    method prototypes, in order, and the tables they are registered with
    are exactly the argument-info tables the header defines: no prototype
    is left unregistered and no table is left unused. *)
Theorem declared_registered_consistent (PHP_VERSION_ID : Z) :
  Forall (fun ds =>
            map (fun e => (fe_classname e, fe_name e)) (header_methods ds)
            = map (fun m => (Some (fst m), Some (snd m))) (declared_methods ds)
            /\ map fe_arg_info (header_methods ds)
               = map Some (arg_info_tables ds))
         (fragments PHP_VERSION_ID).
Proof.
  by_php_version PHP_VERSION_ID; repeat constructor.
Qed.

(** X6: the identifiers of a header are derived from its class and its
    method: the class entry is the lower-cased class name followed by
    [_ce], the method-registration table the lower-cased class name
    followed by [_method_entry], and the argument-info table [arginfo_],
    the lower-cased class name, [_] and the lower-cased method name. *)
Theorem identifiers_follow_class_and_method (PHP_VERSION_ID : Z) :
  Forall (fun ds => exists cls meth,
              declared_methods ds = [(cls, meth)]
              /\ init_classes ds = [cls]
              /\ class_entries ds = [String.append (string_tolower cls) "_ce"]
              /\ method_table_names ds
                 = [String.append (string_tolower cls) "_method_entry"]
              /\ arg_info_table_names ds
                 = [String.append "arginfo_"
                      (String.append (string_tolower cls)
                         (String.append "_" (string_tolower meth)))])
         (fragments PHP_VERSION_ID).
Proof.
  repeat constructor; do 2 eexists;
    (split; [ reflexivity | repeat split; reflexivity ]).
Qed.

(** X7: the two headers can be read into one translation unit: taken
    together they declare no identifier, no class initialisation and no
    method prototype twice. *)
Theorem headers_declare_nothing_twice (PHP_VERSION_ID : Z) :
  NoDup (flat_map declared_identifiers (fragments PHP_VERSION_ID))
  /\ NoDup (flat_map init_classes (fragments PHP_VERSION_ID))
  /\ NoDup (flat_map declared_methods (fragments PHP_VERSION_ID)).
Proof.
  repeat split; repeat constructor; cbn; intuition discriminate.
Qed.
